(** * ajax_listener.js: the completion observer

    A shallow embedding of [src/ajax_listener.js].  The script is an
    immediately-invoked function that polls for the global [jQuery], binds one
    [ajaxComplete] handler on [document], and from that handler pushes a
    [lead_form_completed] event on the global [dataLayer] array.

    The JavaScript fragments the script relies on (property reads, [indexOf],
    [&&], [||], [===], [Array.prototype.push], [console.log], [setTimeout])
    are given their ECMAScript meaning on a small universe of values; faults
    ([TypeError], [ReferenceError]) are results, and the globals the script
    touches are an explicit store threaded through a state-and-error monad. *)

From Stdlib Require Import ZArith List String Ascii Bool Lia Relations.
Import ListNotations.
Local Open Scope string_scope.
Local Open Scope Z_scope.

(** ** JavaScript values *)

Module Js.

Set Warnings "-register-all".

(** The values that can reach the handler: primitives, plain objects (an
    association list of own properties, first binding wins) and arrays.
    Numbers are the integral ones (what [Date.now()] and jQuery's event
    time stamps are) and [NaN], which is the other falsy number.  There are no
    function values: no property of a value of this universe is callable
    unless it is inherited from a built-in prototype. *)
Inductive JsVal : Type :=
| VUndefined
| VNull
| VBool (b : bool)
| VNum (n : Z)
| VNaN
| VStr (s : string)
| VObj (props : list (string * JsVal))
| VArr (elems : list JsVal).

Inductive JsError : Type :=
| TypeError
| ReferenceError.

(** The part of the global environment the script touches: the binding of the
    global [dataLayer] ([None] when no such global is declared) and the lines
    written on the console, oldest first. *)
Record World : Type := mkWorld {
  dataLayer : option JsVal;
  console : list string
}.

(** A computation either completes with a value or throws; in both cases it
    leaves a store behind. *)
Definition M (A : Type) : Type := World -> (JsError + A) * World.

Definition ret {A} (a : A) : M A := fun w => (inr a, w).

Definition throw {A} (e : JsError) : M A := fun w => (inl e, w).

Definition bind {A B} (m : M A) (k : A -> M B) : M B :=
  fun w =>
    match m w with
    | (inl e, w') => (inl e, w')
    | (inr a, w') => k a w'
    end.

Declare Scope js_scope.
Delimit Scope js_scope with js.
Notation "x <- m ;; k" := (bind m (fun x => k))
  (at level 61, m at next level, right associativity) : js_scope.
Notation "m ;;; k" := (bind m (fun _ => k))
  (at level 61, right associativity) : js_scope.

(** [ToBoolean]. *)
Definition to_boolean (v : JsVal) : bool :=
  match v with
  | VUndefined | VNull | VNaN => false
  | VBool b => b
  | VNum n => negb (n =? 0)
  | VStr s => negb (s =? "")%string
  | VObj _ | VArr _ => true
  end.

(** [a === b] where one side is a primitive.  Objects and arrays are equal
    only to themselves by identity, so never to a fresh literal; [NaN] is
    equal to nothing. *)
Definition strict_eq (a b : JsVal) : bool :=
  match a, b with
  | VUndefined, VUndefined => true
  | VNull, VNull => true
  | VBool x, VBool y => Bool.eqb x y
  | VNum x, VNum y => x =? y
  | VStr x, VStr y => (x =? y)%string
  | _, _ => false
  end.

(** [a || b]: the left operand when it is truthy, else the right one. *)
Definition js_or (a b : JsVal) : JsVal := if to_boolean a then a else b.

Fixpoint lookup (k : string) (props : list (string * JsVal)) : option JsVal :=
  match props with
  | [] => None
  | (k', v) :: rest => if (k =? k')%string then Some v else lookup k rest
  end.

(** [v.k] for the keys the script reads ([url], [responseJSON], [timeStamp],
    [success]): a [TypeError] on [undefined] and [null], the own property of
    an object or [undefined] when it has none, and [undefined] on the other
    values, none of which carries such a key. *)
Definition prop_of (v : JsVal) (k : string) : JsError + JsVal :=
  match v with
  | VUndefined | VNull => inl TypeError
  | VObj props =>
      match lookup k props with
      | Some x => inr x
      | None => inr VUndefined
      end
  | _ => inr VUndefined
  end.

(** A step that does not touch the store. *)
Definition lift {A} (r : JsError + A) : M A := fun w => (r, w).

Definition get_prop (v : JsVal) (k : string) : M JsVal := lift (prop_of v k).

(** [String.prototype.indexOf]: the smallest position at which [sub] occurs
    in [s], or -1. *)
Fixpoint string_indexOf_from (k : Z) (sub s : string) : Z :=
  if String.prefix sub s then k
  else match s with
       | EmptyString => -1
       | String _ s' => string_indexOf_from (k + 1) sub s'
       end.

Definition string_indexOf (s sub : string) : Z := string_indexOf_from 0 sub s.

(** [Array.prototype.indexOf]: the first position holding an element
    strictly equal to [x], or -1. *)
Fixpoint array_indexOf_from (k : Z) (x : JsVal) (l : list JsVal) : Z :=
  match l with
  | [] => -1
  | y :: l' => if strict_eq y x then k else array_indexOf_from (k + 1) x l'
  end.

(** The method call [v.indexOf(sub)] with a string argument.  Strings and
    arrays inherit an [indexOf]; reading the method off [undefined] or [null]
    throws, and on every other value the property is not callable. *)
Definition call_indexOf (v : JsVal) (sub : string) : M Z :=
  match v with
  | VStr s => ret (string_indexOf s sub)
  | VArr l => ret (array_indexOf_from 0 (VStr sub) l)
  | _ => throw TypeError
  end.

(** Evaluating the identifier [dataLayer]: a [ReferenceError] when the global
    is not declared. *)
Definition read_dataLayer : M JsVal :=
  fun w =>
    match dataLayer w with
    | None => (inl ReferenceError, w)
    | Some v => (inr v, w)
    end.

(** Reading the method [push] off the value of [dataLayer]: only an array has
    one. *)
Definition get_push (dl : JsVal) : M (list JsVal) :=
  match dl with
  | VArr q => ret q
  | _ => throw TypeError
  end.

(** [Array.prototype.push] on the array bound to [dataLayer]: the array is
    updated in place, the element goes last. *)
Definition array_push (q : list JsVal) (x : JsVal) : M unit :=
  fun w => (inr tt, mkWorld (Some (VArr (q ++ [x]))) (console w)).

Definition console_log (line : string) : M unit :=
  fun w => (inr tt, mkWorld (dataLayer w) (console w ++ [line])).

End Js.

Import Js.
Local Open Scope js_scope.

(** ** The handler bound by [bindToAjax] *)

Definition signup_resource : string := "/wp-admin/admin-ajax.php".

(** The object literal pushed on [dataLayer]. *)
Definition lead_event (time : JsVal) : JsVal :=
  VObj [("event", VStr "lead_form_completed");
        ("attributes", VObj [("time", time)])].

(** The value of
    [requested_url.indexOf(signup_resource) !== -1 && response && response.success === true]:
    [&&] yields its left operand when that is falsy and does not evaluate the
    right one. *)
Definition condition (requested_url response : JsVal) : M JsVal :=
  idx <- call_indexOf requested_url signup_resource ;;
  if negb (idx =? -1) then
    if to_boolean response then
      success <- get_prop response "success" ;;
      ret (VBool (strict_eq success (VBool true)))
    else ret response
  else ret (VBool false).

(** [function (evt, jqXhr, opts) { ... }].  In the call [dataLayer.push({...})]
    the callee is evaluated before the argument, so a missing [dataLayer] is
    reported before [evt.timeStamp] is read. *)
Definition handler (evt jqXhr opts : JsVal) : M unit :=
  requested_url <- get_prop opts "url" ;;
  response <- get_prop jqXhr "responseJSON" ;;
  c <- condition requested_url response ;;
  if to_boolean c then
    dl <- read_dataLayer ;;
    q <- get_push dl ;;
    timeStamp <- get_prop evt "timeStamp" ;;
    array_push q (lead_event (js_or timeStamp (VStr ""))) ;;;
    console_log "lead_form_completed"
  else
    console_log "lead_form_not_completed".

(** ** Start-up: [waitForjQuery] and [bindToAjax] *)

Definition Handler : Type := JsVal -> JsVal -> JsVal -> M unit.

(** What the script owns of the page: whether [$] has been assigned, the
    [waitForjQuery] callbacks handed to [setTimeout] and not yet run, the
    handlers bound to [ajaxComplete] on [document], and (as a record of the
    execution, not read by the script) the outcome of each
    [typeof jQuery !== 'undefined'] test, oldest first. *)
Record Page : Type := mkPage {
  dollar : bool;
  timers : nat;
  handlers : list Handler;
  checks : list bool
}.

Definition page0 : Page := mkPage false 0 [] [].

Definition bindToAjax (p : Page) : Page :=
  mkPage (dollar p) (timers p) (handlers p ++ [handler]) (checks p).

(** One run of [waitForjQuery]; [jq] tells whether [jQuery] is defined when
    it runs. *)
Definition waitForjQuery (jq : bool) (p : Page) : Page :=
  let p := mkPage (dollar p) (timers p) (handlers p) (checks p ++ [jq]) in
  if jq then
    bindToAjax (mkPage true (timers p) (handlers p) (checks p))
  else
    mkPage (dollar p) (S (timers p)) (handlers p) (checks p).

(** The script body: declare [$], call [waitForjQuery()]. *)
Definition start (jq : bool) : Page := waitForjQuery jq page0.

(** A polling interval elapses: a pending callback, if any, is run. *)
Definition fire (jq : bool) (p : Page) : Page :=
  match timers p with
  | O => p
  | S t => waitForjQuery jq (mkPage (dollar p) t (handlers p) (checks p))
  end.

(** The page after [n] polling intervals, when [avail i] tells whether
    [jQuery] is defined after [i] intervals. *)
Fixpoint run (avail : nat -> bool) (n : nat) : Page :=
  match n with
  | O => start (avail O)
  | S m => fire (avail (S m)) (run avail m)
  end.

Inductive step : Page -> Page -> Prop :=
| step_timer (jq : bool) (p : Page) :
    (0 < timers p)%nat -> step p (fire jq p).

Inductive reachable : Page -> Prop :=
| reach_start (jq : bool) : reachable (start jq)
| reach_step (p p' : Page) : reachable p -> step p p' -> reachable p'.

Inductive Phase : Type := WAITING | ATTACHED.

Definition phase (p : Page) : Phase :=
  match handlers p with
  | [] => WAITING
  | _ :: _ => ATTACHED
  end.

(** jQuery's dispatch of one [ajaxComplete] notification: the bound handlers
    run in binding order, and a fault in one of them ends the dispatch. *)
Fixpoint dispatch (hs : list Handler) (evt jqXhr opts : JsVal) : M unit :=
  match hs with
  | [] => ret tt
  | h :: rest => h evt jqXhr opts ;;; dispatch rest evt jqXhr opts
  end.

(** ** What the specification talks about *)

(** [sub] occurs somewhere in [s]. *)
Definition contains (sub s : string) : Prop :=
  exists pre post, s = pre ++ sub ++ post.

(** The parsed response exists and its [success] field is the boolean
    [true]. *)
Definition success_true (r : JsVal) : Prop :=
  exists props, r = VObj props /\ lookup "success" props = Some (VBool true).

(** The [time] attribute of a queued event. *)
Definition event_time (e : JsVal) : option JsVal :=
  match e with
  | VObj props =>
      match lookup "attributes" props with
      | Some (VObj attrs) => lookup "time" attrs
      | _ => None
      end
  | _ => None
  end.

Definition event_name (e : JsVal) : option JsVal :=
  match e with
  | VObj props => lookup "event" props
  | _ => None
  end.

(** The part of a URL before its query string. *)
Fixpoint url_path (s : string) : string :=
  match s with
  | EmptyString => EmptyString
  | String c s' => if Ascii.eqb c "?" then EmptyString else String c (url_path s')
  end.

(** Either the poll is pending and nothing is bound, or the one handler is
    bound and no poll is pending. *)
Definition startup_inv (p : Page) : Prop :=
  (timers p = 1%nat /\ handlers p = []) \/
  (timers p = O /\ handlers p = [handler]).

(** ** The page over time *)

(** The arguments of one [ajaxComplete] notification: [evt], [jqXhr],
    [opts]. *)
Definition Notification : Type := (JsVal * JsVal * JsVal)%type.

(** Successive notifications on a page with the one handler bound.  Each is
    handled in a task of its own: a fault ends that task only, and the next
    notification finds the store the faulting one left. *)
Fixpoint deliver (ns : list Notification) (w : World) : World :=
  match ns with
  | [] => w
  | (evt, jqXhr, opts) :: rest =>
      deliver rest (snd (handler evt jqXhr opts w))
  end.

(** The page while the poll is pending, after [k + 1] failed checks. *)
Definition waiting_page (k : nat) : Page :=
  mkPage false 1 [] (repeat false (S k)).

(** The page once the handler is bound, after [k] failed checks and one
    successful check. *)
Definition attached_page (k : nat) : Page :=
  mkPage true 0 [handler] (repeat false k ++ [true]).

(** The trace lines of the two branches. *)
Definition is_trace_line (l : string) : Prop :=
  l = "lead_form_completed" \/ l = "lead_form_not_completed".

(** What a run of well-formed notifications is expected to leave: one event
    per matching success, in arrival order, and one trace line per
    notification. *)
Inductive queued : list Notification -> list JsVal -> list string -> Prop :=
| queued_nil : queued [] [] []
| queued_lead (evt jqXhr opts : JsVal) (s : string) (r ts t : JsVal)
    (ns : list Notification) (es : list JsVal) (ls : list string) :
    prop_of opts "url" = inr (VStr s) ->
    prop_of jqXhr "responseJSON" = inr r ->
    prop_of evt "timeStamp" = inr ts ->
    contains signup_resource s -> success_true r ->
    (to_boolean ts = true /\ t = ts) \/ (to_boolean ts = false /\ t = VStr "") ->
    queued ns es ls ->
    queued ((evt, jqXhr, opts) :: ns)
           (VObj [("event", VStr "lead_form_completed");
                  ("attributes", VObj [("time", t)])] :: es)
           ("lead_form_completed" :: ls)
| queued_other (evt jqXhr opts : JsVal) (s : string) (r : JsVal)
    (ns : list Notification) (es : list JsVal) (ls : list string) :
    prop_of opts "url" = inr (VStr s) ->
    prop_of jqXhr "responseJSON" = inr r ->
    ~ (contains signup_resource s /\ success_true r) ->
    queued ns es ls ->
    queued ((evt, jqXhr, opts) :: ns) es ("lead_form_not_completed" :: ls).

(** ** Sample notifications *)

Definition sample_url : string :=
  "https://site.test/wp-admin/admin-ajax.php?action=signup".

(** A URL naming the endpoint only in the value of a query parameter. *)
Definition redirect_url : string :=
  "https://site.test/api/track?next=/wp-admin/admin-ajax.php".

Definition sample_opts (url : string) : JsVal :=
  VObj [("type", VStr "POST"); ("url", VStr url)].

Definition sample_jqXhr (response : JsVal) : JsVal :=
  VObj [("status", VNum 200); ("responseJSON", response)].

Definition sample_evt (timeStamp : JsVal) : JsVal :=
  VObj [("type", VStr "ajaxComplete"); ("timeStamp", timeStamp)].

Definition success_response : JsVal := VObj [("success", VBool true)].

Definition failure_response : JsVal := VObj [("success", VBool false)].

(** A page on which the tag manager has created an empty [dataLayer]. *)
Definition empty_queue : World := mkWorld (Some (VArr [])) [].

(** A page without a [dataLayer] global. *)
Definition no_queue : World := mkWorld None [].

(** ** [indexOf] decides containment *)

Section IndexOf.

Variable sub : string.

Lemma prefix_app (post : string) : String.prefix sub (sub ++ post) = true.
Proof.
  induction sub as [|c t IH]; simpl.
  - now destruct post.
  - destruct (ascii_dec c c) as [_|ne]; [exact IH | now elim ne].
Qed.

Lemma prefix_split : forall s,
  String.prefix sub s = true -> exists post, s = sub ++ post.
Proof.
  induction sub as [|c t IH]; intros s H.
  - now exists s.
  - destruct s as [|d s']; simpl in H; [discriminate|].
    destruct (ascii_dec c d) as [->|]; [|discriminate].
    destruct (IH s' H) as [post ->]. now exists post.
Qed.

Lemma string_indexOf_from_prefix (s : string) (k : Z) :
  String.prefix sub s = true -> string_indexOf_from k sub s = k.
Proof. intros H. destruct s; cbn [string_indexOf_from]; now rewrite H. Qed.

Lemma string_indexOf_from_range : forall s k,
  string_indexOf_from k sub s = -1 \/ k <= string_indexOf_from k sub s.
Proof.
  induction s as [|c s IH]; intros k; cbn [string_indexOf_from].
  - destruct (String.prefix sub ""); [right; lia | now left].
  - destruct (String.prefix sub (String c s)); [right; lia|].
    destruct (IH (k + 1)) as [E|E]; [now left | right; lia].
Qed.

Lemma string_indexOf_from_found : forall s k,
  string_indexOf_from k sub s <> -1 -> contains sub s.
Proof.
  induction s as [|c s IH]; intros k; cbn [string_indexOf_from].
  - destruct (String.prefix sub "") eqn:P; [|congruence].
    intros _. destruct (prefix_split _ P) as [post E].
    exists "", post. exact E.
  - destruct (String.prefix sub (String c s)) eqn:P.
    + intros _. destruct (prefix_split _ P) as [post E].
      exists "", post. exact E.
    + intros H. destruct (IH _ H) as (pre & post & ->).
      now exists (String c pre), post.
Qed.

Lemma string_indexOf_from_hit : forall pre post k,
  0 <= k -> string_indexOf_from k sub (pre ++ sub ++ post) <> -1.
Proof.
  induction pre as [|c pre IH]; intros post k Hk.
  - change ("" ++ sub ++ post) with (sub ++ post).
    rewrite string_indexOf_from_prefix by apply prefix_app. lia.
  - change (String c pre ++ sub ++ post) with (String c (pre ++ sub ++ post)).
    cbn [string_indexOf_from].
    destruct (String.prefix sub (String c (pre ++ sub ++ post))); [lia|].
    apply IH. lia.
Qed.

Lemma string_indexOf_contains (s : string) :
  string_indexOf s sub <> -1 <-> contains sub s.
Proof.
  split.
  - apply string_indexOf_from_found.
  - intros (pre & post & ->). now apply string_indexOf_from_hit.
Qed.

Lemma string_indexOf_eqb (s : string) :
  negb (string_indexOf s sub =? -1) = true <-> contains sub s.
Proof.
  rewrite <- string_indexOf_contains, negb_true_iff, Z.eqb_neq. tauto.
Qed.

End IndexOf.

(** ** The classification condition *)

Lemma strict_eq_true (v : JsVal) :
  strict_eq v (VBool true) = true <-> v = VBool true.
Proof.
  destruct v as [| |[|]| | | | |]; simpl; split; congruence.
Qed.

Lemma success_true_truthy (r : JsVal) : success_true r -> to_boolean r = true.
Proof. now intros (props & -> & _). Qed.

Lemma success_true_read (r : JsVal) :
  to_boolean r = true ->
  exists v, prop_of r "success" = inr v /\
            (strict_eq v (VBool true) = true <-> success_true r).
Proof.
  intros T.
  destruct r as [| |b| | |s|props|l]; try discriminate T;
    try (exists VUndefined; split; [reflexivity|];
         split; [discriminate | intros (props & E & _); discriminate E]).
  unfold prop_of. destruct (lookup "success" props) as [x|] eqn:L.
  - exists x. split; [reflexivity|]. rewrite strict_eq_true. split.
    + intros ->. now exists props.
    + intros (props' & E & L'). injection E as <-. congruence.
  - exists VUndefined. split; [reflexivity|]. split; [discriminate|].
    intros (props' & E & L'). injection E as <-. congruence.
Qed.

(** On a string URL the condition never throws, leaves the store alone and
    is truthy exactly when the URL contains the endpoint and the response
    carries [success: true]. *)
Lemma condition_string (s : string) (r : JsVal) (w : World) :
  exists c, condition (VStr s) r w = (inr c, w) /\
            (to_boolean c = true <->
             contains signup_resource s /\ success_true r).
Proof.
  unfold condition, bind, call_indexOf, ret.
  pose proof (string_indexOf_eqb signup_resource s) as I.
  destruct (negb (string_indexOf s signup_resource =? -1)).
  - assert (C : contains signup_resource s) by now apply I.
    destruct (to_boolean r) eqn:T.
    + destruct (success_true_read r T) as (v & P & Q).
      unfold get_prop, lift. rewrite P.
      eexists. split; [reflexivity|]. simpl. rewrite Q. tauto.
    + exists r. split; [reflexivity|]. rewrite T. split; [discriminate|].
      intros [_ S]. apply success_true_truthy in S. congruence.
  - exists (VBool false). split; [reflexivity|]. simpl.
    split; [discriminate|]. intros [C _]. apply I in C. discriminate.
Qed.

Section Handler.

Variables (evt jqXhr opts : JsVal) (s : string) (r : JsVal).
Hypothesis Hurl : prop_of opts "url" = inr (VStr s).
Hypothesis Hresp : prop_of jqXhr "responseJSON" = inr r.

Lemma handler_negative (w : World) :
  ~ (contains signup_resource s /\ success_true r) ->
  handler evt jqXhr opts w =
  (inr tt, mkWorld (dataLayer w) (console w ++ ["lead_form_not_completed"])).
Proof.
  intros N. unfold handler, bind, get_prop, lift. rewrite Hurl, Hresp.
  destruct (condition_string s r w) as (c & -> & Q).
  destruct (to_boolean c); [|reflexivity].
  elim N. now apply Q.
Qed.

Lemma handler_condition_true (w : World) :
  contains signup_resource s -> success_true r ->
  handler evt jqXhr opts w =
  (dl <- read_dataLayer ;;
   q <- get_push dl ;;
   timeStamp <- get_prop evt "timeStamp" ;;
   array_push q (lead_event (js_or timeStamp (VStr ""))) ;;;
   console_log "lead_form_completed") w.
Proof.
  intros C S. unfold handler at 1, bind at 1 2 3, get_prop at 1 2, lift.
  rewrite Hurl, Hresp.
  destruct (condition_string s r w) as (c & -> & Q).
  destruct (to_boolean c); [reflexivity|].
  assert (false = true) by now apply Q. discriminate.
Qed.

Lemma handler_positive (ts : JsVal) (q : list JsVal) (out : list string) :
  contains signup_resource s -> success_true r ->
  prop_of evt "timeStamp" = inr ts ->
  handler evt jqXhr opts (mkWorld (Some (VArr q)) out) =
  (inr tt, mkWorld (Some (VArr (q ++ [lead_event (js_or ts (VStr ""))])))
                   (out ++ ["lead_form_completed"])).
Proof.
  intros C S T. rewrite handler_condition_true by assumption.
  unfold bind, read_dataLayer, get_push, get_prop, lift, ret. simpl.
  now rewrite T.
Qed.

Lemma handler_no_queue (w : World) :
  contains signup_resource s -> success_true r -> dataLayer w = None ->
  handler evt jqXhr opts w = (inl ReferenceError, w).
Proof.
  intros C S D. rewrite handler_condition_true by assumption.
  unfold bind, read_dataLayer. now rewrite D.
Qed.

End Handler.

Lemma sample_url_contains : contains signup_resource sample_url.
Proof. now exists "https://site.test", "?action=signup". Qed.

Lemma success_response_true : success_true success_response.
Proof. now exists [("success", VBool true)]. Qed.

(** ** The handler on one notification *)

(** C1 (as amended): on a notification whose URL contains
    [/wp-admin/admin-ajax.php], whose parsed response carries [success: true]
    and whose time stamp is truthy, the handler appends exactly one event to
    the queue, named [lead_form_completed], whose [time] attribute is that
    time stamp. *)
Theorem lead_event_queued_once
  (evt jqXhr opts : JsVal) (s : string) (r ts : JsVal)
  (q : list JsVal) (out : list string) :
  prop_of opts "url" = inr (VStr s) ->
  contains signup_resource s ->
  prop_of jqXhr "responseJSON" = inr r ->
  success_true r ->
  prop_of evt "timeStamp" = inr ts ->
  to_boolean ts = true ->
  exists e,
    handler evt jqXhr opts (mkWorld (Some (VArr q)) out) =
    (inr tt, mkWorld (Some (VArr (q ++ [e]))) (out ++ ["lead_form_completed"]))
    /\ e = VObj [("event", VStr "lead_form_completed");
                 ("attributes", VObj [("time", ts)])]
    /\ event_name e = Some (VStr "lead_form_completed")
    /\ event_time e = Some ts.
Proof.
  intros U C R S T B. exists (lead_event ts).
  rewrite (handler_positive evt jqXhr opts s r U R ts q out C S T).
  unfold js_or. rewrite B. repeat split.
Qed.

Lemma lead_event_queued_once_witness :
  exists e,
    handler (sample_evt (VNum 1234)) (sample_jqXhr success_response)
            (sample_opts sample_url) empty_queue =
    (inr tt, mkWorld (Some (VArr ([] ++ [e]))) ([] ++ ["lead_form_completed"]))
    /\ e = VObj [("event", VStr "lead_form_completed");
                 ("attributes", VObj [("time", VNum 1234)])]
    /\ event_name e = Some (VStr "lead_form_completed")
    /\ event_time e = Some (VNum 1234).
Proof.
  apply (lead_event_queued_once
           (sample_evt (VNum 1234)) (sample_jqXhr success_response)
           (sample_opts sample_url) sample_url success_response (VNum 1234)).
  - reflexivity.
  - exact sample_url_contains.
  - reflexivity.
  - exact success_response_true.
  - reflexivity.
  - reflexivity.
Defined.

(** C1 (as stated) fails when the time stamp is 0: the URL matches, the
    response carries [success: true], and the one queued event holds the empty
    string under [time], not the time stamp.  (It also fails on a page with no
    [dataLayer]: the same notification with time stamp 1234 throws and queues
    nothing.) *)
Lemma time_attribute_is_not_timestamp_zero :
  let evt := sample_evt (VNum 0) in
  let jqXhr := sample_jqXhr success_response in
  let opts := sample_opts sample_url in
  prop_of opts "url" = inr (VStr sample_url) /\
  contains signup_resource sample_url /\
  prop_of jqXhr "responseJSON" = inr success_response /\
  success_true success_response /\
  prop_of evt "timeStamp" = inr (VNum 0) /\
  handler evt jqXhr opts empty_queue =
    (inr tt, mkWorld (Some (VArr [lead_event (VStr "")]))
                     ["lead_form_completed"]) /\
  event_time (lead_event (VStr "")) <> Some (VNum 0) /\
  handler evt jqXhr opts empty_queue <>
    (inr tt, mkWorld (Some (VArr [lead_event (VNum 0)]))
                     ["lead_form_completed"]) /\
  handler (sample_evt (VNum 1234)) jqXhr opts no_queue =
    (inl ReferenceError, no_queue).
Proof.
  repeat split; try reflexivity.
  - exact sample_url_contains.
  - exact success_response_true.
  - discriminate.
  - vm_compute. discriminate.
Qed.

(** C2: on a notification whose URL contains the endpoint but whose response
    is absent or does not carry [success: true], the handler completes, traces
    [lead_form_not_completed] and leaves the queue as it was. *)
Theorem no_event_without_success_true
  (evt jqXhr opts : JsVal) (s : string) (r : JsVal) (w : World) :
  prop_of opts "url" = inr (VStr s) ->
  contains signup_resource s ->
  prop_of jqXhr "responseJSON" = inr r ->
  ~ success_true r ->
  handler evt jqXhr opts w =
    (inr tt, mkWorld (dataLayer w) (console w ++ ["lead_form_not_completed"]))
  /\ dataLayer (snd (handler evt jqXhr opts w)) = dataLayer w.
Proof.
  intros U C R N.
  rewrite (handler_negative evt jqXhr opts s r U R w) by tauto.
  now split.
Qed.

Lemma failure_response_not_true : ~ success_true failure_response.
Proof. intros (props & E & L). injection E as <-. discriminate L. Qed.

Lemma no_event_without_success_true_witness :
  handler (sample_evt (VNum 1234)) (sample_jqXhr failure_response)
          (sample_opts sample_url) empty_queue =
    (inr tt, mkWorld (dataLayer empty_queue)
                     (console empty_queue ++ ["lead_form_not_completed"]))
  /\ dataLayer (snd (handler (sample_evt (VNum 1234))
                             (sample_jqXhr failure_response)
                             (sample_opts sample_url) empty_queue))
     = dataLayer empty_queue.
Proof.
  apply (no_event_without_success_true
           (sample_evt (VNum 1234)) (sample_jqXhr failure_response)
           (sample_opts sample_url) sample_url failure_response empty_queue).
  - reflexivity.
  - exact sample_url_contains.
  - reflexivity.
  - exact failure_response_not_true.
Defined.

(** The truthy look-alikes of C2, and the absent response, evaluated. *)
Example string_true_is_not_success :
  handler (sample_evt (VNum 1234))
          (sample_jqXhr (VObj [("success", VStr "true")]))
          (sample_opts sample_url) empty_queue
  = (inr tt, mkWorld (Some (VArr [])) ["lead_form_not_completed"]).
Proof. reflexivity. Qed.

Example number_one_is_not_success :
  handler (sample_evt (VNum 1234))
          (sample_jqXhr (VObj [("success", VNum 1)]))
          (sample_opts sample_url) empty_queue
  = (inr tt, mkWorld (Some (VArr [])) ["lead_form_not_completed"]).
Proof. reflexivity. Qed.

Example absent_response_is_not_success :
  handler (sample_evt (VNum 1234)) (VObj [("status", VNum 200)])
          (sample_opts sample_url) empty_queue
  = (inr tt, mkWorld (Some (VArr [])) ["lead_form_not_completed"]).
Proof. reflexivity. Qed.

(** C3 (as amended): the handler has no fault handling of its own.  It
    completes normally whenever the notification carries a string URL and a
    readable response and, should the notification be a matching success, the
    global [dataLayer] is an array and the event's time stamp is readable. *)
Theorem handler_completes
  (evt jqXhr opts : JsVal) (s : string) (r : JsVal) (w : World) :
  prop_of opts "url" = inr (VStr s) ->
  prop_of jqXhr "responseJSON" = inr r ->
  (contains signup_resource s -> success_true r ->
   (exists q, dataLayer w = Some (VArr q)) /\
   (exists ts, prop_of evt "timeStamp" = inr ts)) ->
  exists w', handler evt jqXhr opts w = (inr tt, w').
Proof.
  intros U R G.
  destruct (condition_string s r w) as (c & _ & Q).
  destruct (to_boolean c) eqn:B.
  - destruct Q as [Q _]. destruct (Q eq_refl) as [C S].
    destruct (G C S) as [[q D] [ts T]].
    destruct w as [dl out]. simpl in D. subst dl.
    eexists. exact (handler_positive evt jqXhr opts s r U R ts q out C S T).
  - eexists. apply (handler_negative evt jqXhr opts s r U R w).
    intros H. apply Q in H. discriminate.
Qed.

Lemma handler_completes_witness :
  exists w',
    handler (sample_evt (VNum 1234)) (sample_jqXhr success_response)
            (sample_opts sample_url) empty_queue = (inr tt, w').
Proof.
  apply (handler_completes
           (sample_evt (VNum 1234)) (sample_jqXhr success_response)
           (sample_opts sample_url) sample_url success_response empty_queue).
  - reflexivity.
  - reflexivity.
  - intros _ _. split.
    + exists []. reflexivity.
    + exists (VNum 1234). reflexivity.
Defined.

(** C3 (as stated) fails: with the URL field absent the handler throws a
    [TypeError], and with no [dataLayer] global a matching success throws a
    [ReferenceError]; neither run writes a trace line. *)
Lemma handler_throws :
  handler (sample_evt (VNum 1234)) (sample_jqXhr success_response)
          (VObj [("type", VStr "POST")]) empty_queue
    = (inl TypeError, empty_queue)
  /\ handler (sample_evt (VNum 1234)) (sample_jqXhr success_response)
             (sample_opts sample_url) no_queue
    = (inl ReferenceError, no_queue).
Proof. split; reflexivity. Qed.

(** C4: on a notification whose URL does not contain the endpoint, the queue
    is left as it was whatever the response is (even an unreadable one), and
    with a readable response the handler completes and traces
    [lead_form_not_completed]. *)
Theorem no_event_for_other_urls
  (evt jqXhr opts : JsVal) (s : string) (w : World) :
  prop_of opts "url" = inr (VStr s) ->
  ~ contains signup_resource s ->
  dataLayer (snd (handler evt jqXhr opts w)) = dataLayer w
  /\ forall r, prop_of jqXhr "responseJSON" = inr r ->
       handler evt jqXhr opts w =
       (inr tt,
        mkWorld (dataLayer w) (console w ++ ["lead_form_not_completed"])).
Proof.
  intros U N.
  assert (K : forall r, prop_of jqXhr "responseJSON" = inr r ->
            handler evt jqXhr opts w =
            (inr tt,
             mkWorld (dataLayer w) (console w ++ ["lead_form_not_completed"]))).
  { intros r R. apply (handler_negative evt jqXhr opts s r U R w). tauto. }
  split; [|exact K].
  destruct (prop_of jqXhr "responseJSON") as [e|r] eqn:R.
  - unfold handler, bind, get_prop, lift. now rewrite U, R.
  - now rewrite (K r eq_refl).
Qed.

Lemma other_url_does_not_contain :
  ~ contains signup_resource "https://site.test/wp-json/wp/v2/posts".
Proof.
  intros C. apply string_indexOf_contains in C. now apply C.
Qed.

Lemma no_event_for_other_urls_witness :
  dataLayer (snd (handler (sample_evt (VNum 1234))
                          (sample_jqXhr success_response)
                          (sample_opts "https://site.test/wp-json/wp/v2/posts")
                          empty_queue))
  = dataLayer empty_queue
  /\ forall r,
       prop_of (sample_jqXhr success_response) "responseJSON" = inr r ->
       handler (sample_evt (VNum 1234)) (sample_jqXhr success_response)
               (sample_opts "https://site.test/wp-json/wp/v2/posts")
               empty_queue =
       (inr tt,
        mkWorld (dataLayer empty_queue)
                (console empty_queue ++ ["lead_form_not_completed"])).
Proof.
  apply (no_event_for_other_urls
           (sample_evt (VNum 1234)) (sample_jqXhr success_response)
           (sample_opts "https://site.test/wp-json/wp/v2/posts")
           "https://site.test/wp-json/wp/v2/posts" empty_queue).
  - reflexivity.
  - exact other_url_does_not_contain.
Defined.

(** C5: on a matching successful notification whose time stamp is absent or
    zero, the queued event still has a [time] attribute, holding the empty
    string. *)
Theorem empty_time_when_timestamp_missing
  (evt jqXhr opts : JsVal) (s : string) (r ts : JsVal)
  (q : list JsVal) (out : list string) :
  prop_of opts "url" = inr (VStr s) ->
  contains signup_resource s ->
  prop_of jqXhr "responseJSON" = inr r ->
  success_true r ->
  prop_of evt "timeStamp" = inr ts ->
  ts = VUndefined \/ ts = VNum 0 ->
  exists e,
    handler evt jqXhr opts (mkWorld (Some (VArr q)) out) =
    (inr tt, mkWorld (Some (VArr (q ++ [e]))) (out ++ ["lead_form_completed"]))
    /\ event_time e = Some (VStr "").
Proof.
  intros U C R S T Z. exists (lead_event (VStr "")).
  rewrite (handler_positive evt jqXhr opts s r U R ts q out C S T).
  now destruct Z as [-> | ->].
Qed.

Lemma empty_time_when_timestamp_missing_witness :
  exists e,
    handler (VObj [("type", VStr "ajaxComplete")])
            (sample_jqXhr success_response)
            (sample_opts sample_url) (mkWorld (Some (VArr [])) []) =
    (inr tt, mkWorld (Some (VArr ([] ++ [e]))) ([] ++ ["lead_form_completed"]))
    /\ event_time e = Some (VStr "").
Proof.
  apply (empty_time_when_timestamp_missing
           (VObj [("type", VStr "ajaxComplete")])
           (sample_jqXhr success_response)
           (sample_opts sample_url) sample_url success_response VUndefined).
  - reflexivity.
  - exact sample_url_contains.
  - reflexivity.
  - exact success_response_true.
  - reflexivity.
  - left. reflexivity.
Defined.

Example zero_timestamp_gives_empty_time :
  handler (sample_evt (VNum 0)) (sample_jqXhr success_response)
          (sample_opts sample_url) empty_queue
  = (inr tt, mkWorld (Some (VArr [lead_event (VStr "")]))
                     ["lead_form_completed"]).
Proof. reflexivity. Qed.

(** C6: the endpoint may occur anywhere in the URL.  There is a notification
    whose URL names the endpoint only in a query-string value, not in its
    path, and for which the event is queued. *)
Theorem endpoint_in_query_string_matches :
  exists (evt jqXhr opts : JsVal) (s : string),
    prop_of opts "url" = inr (VStr s)
    /\ contains signup_resource s
    /\ ~ contains signup_resource (url_path s)
    /\ prop_of jqXhr "responseJSON" = inr success_response
    /\ handler evt jqXhr opts empty_queue =
       (inr tt, mkWorld (Some (VArr [lead_event (VNum 1234)]))
                        ["lead_form_completed"]).
Proof.
  exists (sample_evt (VNum 1234)), (sample_jqXhr success_response),
         (sample_opts redirect_url), redirect_url.
  repeat split.
  - now exists "https://site.test/api/track?next=", "".
  - intros C. apply string_indexOf_contains in C. now apply C.
Qed.

(** C9 (as amended): on every notification (string URL, readable response and
    time stamp), when [dataLayer] is an array the handler writes exactly one
    trace line, one of the two fixed texts according to the branch, and the
    queue it leaves is the queue it found followed by [added], which does not
    depend on the queue found: one event in the success branch, nothing
    otherwise.  Outside the success branch this holds on every page: one
    trace line, and the [dataLayer] binding is not touched, whatever it is. *)
Theorem one_trace_and_append_only
  (evt jqXhr opts : JsVal) (s : string) (r ts : JsVal) :
  prop_of opts "url" = inr (VStr s) ->
  prop_of jqXhr "responseJSON" = inr r ->
  prop_of evt "timeStamp" = inr ts ->
  exists (line : string) (added : list JsVal),
    (forall q out,
       handler evt jqXhr opts (mkWorld (Some (VArr q)) out) =
       (inr tt, mkWorld (Some (VArr (q ++ added))) (out ++ [line])))
    /\ ((contains signup_resource s /\ success_true r)
        /\ line = "lead_form_completed" /\ List.length added = 1%nat
        \/
        ~ (contains signup_resource s /\ success_true r)
        /\ line = "lead_form_not_completed" /\ added = []
        /\ forall w,
             handler evt jqXhr opts w =
             (inr tt, mkWorld (dataLayer w) (console w ++ [line]))).
Proof.
  intros U R T.
  destruct (condition_string s r empty_queue) as (c & _ & Q).
  destruct (to_boolean c) eqn:B.
  - destruct Q as [Q _]. destruct (Q eq_refl) as [C S].
    exists "lead_form_completed", [lead_event (js_or ts (VStr ""))]. split.
    + intros q out.
      exact (handler_positive evt jqXhr opts s r U R ts q out C S T).
    + left. repeat split; assumption.
  - assert (N : ~ (contains signup_resource s /\ success_true r)).
    { intros H. apply Q in H. discriminate. }
    exists "lead_form_not_completed", []. split.
    + intros q out. rewrite app_nil_r.
      exact (handler_negative evt jqXhr opts s r U R _ N).
    + right. repeat split; try assumption.
      intros w. exact (handler_negative evt jqXhr opts s r U R w N).
Qed.

Lemma one_trace_and_append_only_witness :
  exists (line : string) (added : list JsVal),
    (forall q out,
       handler (sample_evt (VNum 1234)) (sample_jqXhr failure_response)
               (sample_opts sample_url) (mkWorld (Some (VArr q)) out) =
       (inr tt, mkWorld (Some (VArr (q ++ added))) (out ++ [line])))
    /\ ((contains signup_resource sample_url /\ success_true failure_response)
        /\ line = "lead_form_completed" /\ List.length added = 1%nat
        \/
        ~ (contains signup_resource sample_url
           /\ success_true failure_response)
        /\ line = "lead_form_not_completed" /\ added = []
        /\ forall w,
             handler (sample_evt (VNum 1234)) (sample_jqXhr failure_response)
                     (sample_opts sample_url) w =
             (inr tt, mkWorld (dataLayer w) (console w ++ [line]))).
Proof.
  apply (one_trace_and_append_only
           (sample_evt (VNum 1234)) (sample_jqXhr failure_response)
           (sample_opts sample_url) sample_url failure_response (VNum 1234)).
  - reflexivity.
  - reflexivity.
  - reflexivity.
Defined.

(** C9 (as stated) fails on a page with no [dataLayer]: a matching successful
    notification throws at the push, before the trace line is written, so the
    run leaves no trace line at all. *)
Lemma no_trace_without_queue :
  let evt := sample_evt (VNum 1234) in
  let jqXhr := sample_jqXhr success_response in
  let opts := sample_opts sample_url in
  handler evt jqXhr opts no_queue = (inl ReferenceError, no_queue)
  /\ console (snd (handler evt jqXhr opts no_queue)) = console no_queue
  /\ List.length (console (snd (handler evt jqXhr opts no_queue))) <> 1%nat.
Proof. repeat split. discriminate. Qed.

(** C10: the handler is a function of the store and of three reads,
    [opts.url], [jqXhr.responseJSON] and [evt.timeStamp].  Two notifications
    that agree on these give, from the same store, the same completion, the
    same queue and the same trace, whatever else they carry. *)
Theorem handler_depends_on_three_fields
  (evt jqXhr opts evt' jqXhr' opts' : JsVal) :
  prop_of opts "url" = prop_of opts' "url" ->
  prop_of jqXhr "responseJSON" = prop_of jqXhr' "responseJSON" ->
  prop_of evt "timeStamp" = prop_of evt' "timeStamp" ->
  forall w, handler evt jqXhr opts w = handler evt' jqXhr' opts' w.
Proof.
  intros U R T w. unfold handler, get_prop. now rewrite U, R, T.
Qed.

Lemma handler_depends_on_three_fields_witness :
  handler (sample_evt (VNum 1234)) (sample_jqXhr success_response)
          (sample_opts sample_url) empty_queue =
  handler (VObj [("timeStamp", VNum 1234); ("isTrigger", VNum 3)])
          (VObj [("responseJSON", success_response);
                 ("responseText", VStr "{}"); ("status", VNum 201)])
          (VObj [("url", VStr sample_url); ("async", VBool true)])
          empty_queue.
Proof.
  apply (handler_depends_on_three_fields
           (sample_evt (VNum 1234)) (sample_jqXhr success_response)
           (sample_opts sample_url)); reflexivity.
Defined.

(** ** Start-up *)

Lemma fire_idle (jq : bool) (p : Page) : timers p = O -> fire jq p = p.
Proof. unfold fire. now intros ->. Qed.

Lemma start_inv (jq : bool) : startup_inv (start jq).
Proof. destruct jq; [right | left]; now split. Qed.

Lemma fire_inv (jq : bool) (p : Page) : startup_inv p -> startup_inv (fire jq p).
Proof.
  intros [[T H] | [T H]].
  - unfold fire. rewrite T. unfold waitForjQuery, bindToAjax. simpl.
    rewrite H. destruct jq; [right | left]; now split.
  - rewrite fire_idle by assumption. right. now split.
Qed.

Lemma reachable_inv (p : Page) : reachable p -> startup_inv p.
Proof.
  induction 1 as [jq | p p' _ IH St].
  - apply start_inv.
  - destruct St. now apply fire_inv.
Qed.

Lemma run_inv (avail : nat -> bool) (n : nat) :
  startup_inv (run avail n).
Proof.
  induction n as [|n IH]; simpl; [apply start_inv | now apply fire_inv].
Qed.

Lemma idle_is_final (p p' : Page) :
  timers p = O -> clos_refl_trans Page step p p' -> p' = p.
Proof.
  intros T H. apply clos_rt_rt1n in H.
  induction H as [p | p p1 p2 St _ _]; [reflexivity|].
  destruct St as [jq p L]. lia.
Qed.

(** With a single subscription a notification runs the handler once. *)
Lemma dispatch_single (evt jqXhr opts : JsVal) (w : World) :
  dispatch [handler] evt jqXhr opts w = handler evt jqXhr opts w.
Proof.
  unfold dispatch, bind, ret.
  now destruct (handler evt jqXhr opts w) as [[e|[]] w'].
Qed.

Lemma attached_dispatch (p : Page) (evt jqXhr opts : JsVal) (w : World) :
  reachable p -> phase p = ATTACHED ->
  dispatch (handlers p) evt jqXhr opts w = handler evt jqXhr opts w.
Proof.
  intros Rp A. destruct (reachable_inv p Rp) as [[_ H] | [_ H]].
  - unfold phase in A. rewrite H in A. discriminate.
  - rewrite H. apply dispatch_single.
Qed.

Lemma run_waiting (avail : nat -> bool) (k : nat) :
  (forall i, (i <= k)%nat -> avail i = false) ->
  run avail k = mkPage false 1 [] (repeat false (S k)).
Proof.
  induction k as [|k IH]; intros F.
  - simpl. unfold start. now rewrite (F O) by lia.
  - cbn [run]. rewrite IH by (intros i Hi; apply F; lia).
    rewrite (F (S k)) by lia. unfold fire, waitForjQuery. simpl.
    now rewrite <- (repeat_cons k false).
Qed.

(** C7: if [jQuery] becomes available after [k] polling intervals, the first
    [k] checks fail and leave one poll pending with nothing bound, check
    [k+1] succeeds and binds the handler, and from then on no poll is pending
    and the page no longer changes. *)
Theorem attaches_on_attempt_k_plus_1 (avail : nat -> bool) (k : nat) :
  (forall i, (i < k)%nat -> avail i = false) ->
  avail k = true ->
  (forall j, (j < k)%nat ->
     run avail j = mkPage false 1 [] (repeat false (S j)))
  /\ run avail k = mkPage true 0 [handler] (repeat false k ++ [true])
  /\ forall n, (k <= n)%nat -> run avail n = run avail k.
Proof.
  intros F A.
  assert (W : forall j, (j < k)%nat ->
            run avail j = mkPage false 1 [] (repeat false (S j))).
  { intros j Hj. apply run_waiting. intros i Hi. apply F. lia. }
  assert (K : run avail k = mkPage true 0 [handler] (repeat false k ++ [true])).
  { destruct k as [|k].
    - simpl. unfold start. now rewrite A.
    - cbn [run]. rewrite (W k) by lia. rewrite A. reflexivity. }
  repeat split; try assumption.
  induction 1 as [|n Hn IH]; [reflexivity|].
  cbn [run]. rewrite IH. apply fire_idle. now rewrite K.
Qed.

Lemma attaches_on_attempt_k_plus_1_witness :
  (forall j, (j < 2)%nat ->
     run (fun i => Nat.leb 2 i) j = mkPage false 1 [] (repeat false (S j)))
  /\ run (fun i => Nat.leb 2 i) 2
     = mkPage true 0 [handler] (repeat false 2 ++ [true])
  /\ forall n, (2 <= n)%nat ->
       run (fun i => Nat.leb 2 i) n = run (fun i => Nat.leb 2 i) 2.
Proof.
  apply (attaches_on_attempt_k_plus_1 (fun i => Nat.leb 2 i) 2).
  - intros i Hi. apply Nat.leb_gt. exact Hi.
  - reflexivity.
Defined.

(** C8: in every reachable state of the start-up at most one handler is
    bound, and once the page is [ATTACHED] the bound handlers never change:
    no further step is possible. *)
Theorem subscription_installed_at_most_once (p : Page) :
  reachable p ->
  (List.length (handlers p) <= 1)%nat
  /\ (phase p = ATTACHED ->
      handlers p = [handler]
      /\ forall p', clos_refl_trans Page step p p' ->
           List.length (handlers p') = List.length (handlers p)).
Proof.
  intros Rp. destruct (reachable_inv p Rp) as [[T H] | [T H]].
  - split; [rewrite H; simpl; lia|].
    unfold phase. rewrite H. discriminate.
  - split; [rewrite H; simpl; lia|].
    intros _. split; [exact H|].
    intros p' St. now rewrite (idle_is_final p p' T St).
Qed.

Lemma subscription_installed_at_most_once_witness :
  (List.length (handlers (fire true (start false))) <= 1)%nat
  /\ (phase (fire true (start false)) = ATTACHED ->
      handlers (fire true (start false)) = [handler]
      /\ forall p', clos_refl_trans Page step (fire true (start false)) p' ->
           List.length (handlers p') = List.length (handlers (fire true (start false)))).
Proof.
  apply (subscription_installed_at_most_once (fire true (start false))).
  apply (reach_step (start false)).
  - apply reach_start.
  - apply step_timer. simpl. lia.
Defined.

(** ** The handler on arbitrary arguments *)

(** Evaluating the condition never touches the store. *)
Lemma condition_pure (u r : JsVal) (w : World) :
  exists x, condition u r w = (x, w).
Proof.
  unfold condition, bind, call_indexOf, ret, throw, get_prop, lift.
  destruct u; try (eexists; reflexivity).
  - destruct (negb (string_indexOf s signup_resource =? -1));
      [|eexists; reflexivity].
    destruct (to_boolean r); [|eexists; reflexivity].
    destruct (prop_of r "success"); eexists; reflexivity.
  - destruct (negb (array_indexOf_from 0 (VStr signup_resource) elems =? -1));
      [|eexists; reflexivity].
    destruct (to_boolean r); [|eexists; reflexivity].
    destruct (prop_of r "success"); eexists; reflexivity.
Qed.

(** The three ways a run of the handler can end, whatever its arguments and
    the store: a fault with the store as found, the negative trace with the
    queue as found, or one event pushed on an array and the positive trace. *)
Lemma handler_outcomes (evt jqXhr opts : JsVal) (w : World) :
  (exists e, handler evt jqXhr opts w = (inl e, w))
  \/ handler evt jqXhr opts w =
     (inr tt, mkWorld (dataLayer w) (console w ++ ["lead_form_not_completed"]))
  \/ (exists q ts,
        dataLayer w = Some (VArr q) /\
        prop_of evt "timeStamp" = inr ts /\
        handler evt jqXhr opts w =
        (inr tt, mkWorld (Some (VArr (q ++ [lead_event (js_or ts (VStr ""))])))
                         (console w ++ ["lead_form_completed"]))).
Proof.
  unfold handler, bind, get_prop, lift.
  destruct (prop_of opts "url") as [e|u]; [left; now exists e|].
  destruct (prop_of jqXhr "responseJSON") as [e|r]; [left; now exists e|].
  destruct (condition_pure u r w) as [[e|c] ->]; [left; now exists e|].
  destruct (to_boolean c); [|right; left; reflexivity].
  unfold read_dataLayer.
  destruct (dataLayer w) as [dl|] eqn:D; [|left; now exists ReferenceError].
  destruct dl as [| | | | | | |q]; try (left; now exists TypeError).
  destruct (prop_of evt "timeStamp") as [e|ts]; [left; now exists e|].
  right; right. exists q, ts. repeat split.
Qed.

Lemma prop_of_error (v : JsVal) (k : string) (e : JsError) :
  prop_of v k = inl e -> e = TypeError.
Proof.
  destruct v; simpl; try congruence.
  destruct (lookup k props); congruence.
Qed.

Lemma js_or_empty (ts : JsVal) :
  js_or ts (VStr "") = VStr "" \/ to_boolean (js_or ts (VStr "")) = true.
Proof.
  unfold js_or. destruct (to_boolean ts) eqn:B; [now right | now left].
Qed.

(** X1: a run of the handler that ends in a fault leaves the store exactly as
    it found it: nothing is queued and nothing is traced, whatever the
    arguments. *)
Theorem fault_leaves_store_unchanged
  (evt jqXhr opts : JsVal) (w : World) (e : JsError) :
  fst (handler evt jqXhr opts w) = inl e ->
  snd (handler evt jqXhr opts w) = w.
Proof.
  intros F.
  destruct (handler_outcomes evt jqXhr opts w)
    as [[e' H] | [H | (q & ts & _ & _ & H)]];
    rewrite H in *; [reflexivity | discriminate F | discriminate F].
Qed.

Lemma fault_leaves_store_unchanged_witness :
  snd (handler (sample_evt (VNum 1234)) (sample_jqXhr success_response)
               (sample_opts sample_url)
               (mkWorld (Some (VObj [])) ["page loaded"]))
  = mkWorld (Some (VObj [])) ["page loaded"].
Proof.
  apply (fault_leaves_store_unchanged
           (sample_evt (VNum 1234)) (sample_jqXhr success_response)
           (sample_opts sample_url)
           (mkWorld (Some (VObj [])) ["page loaded"]) TypeError).
  reflexivity.
Defined.

(** X2: on a notification with a string URL and a readable response the
    handler faults only on the success path, and exactly when the event
    cannot be pushed: a [ReferenceError] when no [dataLayer] is declared, a
    [TypeError] when [dataLayer] is not an array, and the fault of reading
    [evt.timeStamp] when [evt] is [undefined] or [null]. *)
Theorem fault_only_when_push_fails
  (evt jqXhr opts : JsVal) (s : string) (r : JsVal) (w : World)
  (e : JsError) :
  prop_of opts "url" = inr (VStr s) ->
  prop_of jqXhr "responseJSON" = inr r ->
  fst (handler evt jqXhr opts w) = inl e <->
  (contains signup_resource s /\ success_true r) /\
  ((dataLayer w = None /\ e = ReferenceError)
   \/ ((exists v, dataLayer w = Some v /\ forall q, v <> VArr q)
       /\ e = TypeError)
   \/ ((exists q, dataLayer w = Some (VArr q))
       /\ prop_of evt "timeStamp" = inl e)).
Proof.
  intros U R.
  destruct (condition_string s r w) as (c & _ & Q).
  destruct (to_boolean c) eqn:B.
  - destruct Q as [Q _]. destruct (Q eq_refl) as [C S].
    rewrite (handler_condition_true evt jqXhr opts s r U R w C S).
    unfold bind, read_dataLayer.
    destruct (dataLayer w) as [v|] eqn:D.
    + assert (A : (exists q, v = VArr q) \/ forall q, v <> VArr q).
      { destruct v; try (right; discriminate). left. now eexists. }
      destruct A as [[q ->] | N].
      * unfold get_push, ret, get_prop, lift.
        destruct (prop_of evt "timeStamp") as [e'|ts] eqn:T; simpl.
        -- split.
           ++ intros H. injection H as <-. split; [now split|].
              right; right. split; [now exists q | reflexivity].
           ++ intros (_ & [[H _] | [[(v & H & N) _] | [_ H]]]).
              ** discriminate H.
              ** injection H as <-. now elim (N q).
              ** congruence.
        -- split; [discriminate|].
           intros (_ & [[H _] | [[(v & H & N) _] | [_ H]]]).
           ++ discriminate H.
           ++ injection H as <-. now elim (N q).
           ++ discriminate H.
      * assert (G' : forall w0, get_push v w0 = (inl TypeError, w0)).
        { intros w0. destruct v; try reflexivity. now elim (N elems). }
        rewrite G'. simpl. split.
        -- intros H. injection H as <-. split; [now split|].
           right; left. split; [|reflexivity]. now exists v.
        -- intros (_ & [[H _] | [[_ H] | [(q & H) _]]]).
           ++ discriminate H.
           ++ now subst e.
           ++ injection H as ->. now elim (N q).
    + simpl. split.
      * intros H. injection H as <-. split; [now split|]. now left.
      * intros (_ & [[_ H] | [[(v & H & _) _] | [(q & H) _]]]).
        -- now subst e.
        -- discriminate H.
        -- discriminate H.
  - assert (N : ~ (contains signup_resource s /\ success_true r)).
    { intros H. apply Q in H. discriminate. }
    rewrite (handler_negative evt jqXhr opts s r U R w N). simpl.
    split; [discriminate | tauto].
Qed.

Lemma fault_only_when_push_fails_witness :
  fst (handler (sample_evt (VNum 1234)) (sample_jqXhr success_response)
               (sample_opts sample_url) no_queue) = inl ReferenceError <->
  (contains signup_resource sample_url /\ success_true success_response) /\
  ((dataLayer no_queue = None /\ ReferenceError = ReferenceError)
   \/ ((exists v, dataLayer no_queue = Some v /\ forall q, v <> VArr q)
       /\ ReferenceError = TypeError)
   \/ ((exists q, dataLayer no_queue = Some (VArr q))
       /\ prop_of (sample_evt (VNum 1234)) "timeStamp" = inl ReferenceError)).
Proof.
  apply (fault_only_when_push_fails
           (sample_evt (VNum 1234)) (sample_jqXhr success_response)
           (sample_opts sample_url) sample_url success_response no_queue
           ReferenceError); reflexivity.
Defined.

(** X3: a notification the handler cannot read throws a [TypeError] before
    anything is written: when [opts] or [jqXhr] is [undefined] or [null], and
    when [opts.url] is neither a string nor an array (so has no [indexOf]) --
    in that last case whatever the response says. *)
Theorem malformed_notification_throws
  (evt jqXhr opts : JsVal) (w : World) :
  opts = VUndefined \/ opts = VNull \/
  jqXhr = VUndefined \/ jqXhr = VNull \/
  (exists u, prop_of opts "url" = inr u
             /\ (forall s, u <> VStr s) /\ (forall l, u <> VArr l)) ->
  handler evt jqXhr opts w = (inl TypeError, w).
Proof.
  unfold handler, bind, get_prop, lift.
  intros [-> | [-> | H]]; try reflexivity.
  destruct (prop_of opts "url") as [e|u] eqn:U.
  - now rewrite (prop_of_error _ _ _ U).
  - destruct H as [-> | [-> | (u' & E & NS & NA)]]; try reflexivity.
    injection E as <-.
    destruct (prop_of jqXhr "responseJSON") as [e|r] eqn:R.
    + now rewrite (prop_of_error _ _ _ R).
    + unfold condition, bind, call_indexOf.
      destruct u; try reflexivity; [now elim (NS s) | now elim (NA elems)].
Qed.

Lemma malformed_notification_throws_witness :
  handler (sample_evt (VNum 1234)) (sample_jqXhr success_response)
          (VObj [("url", VNum 42)]) empty_queue
  = (inl TypeError, empty_queue).
Proof.
  apply (malformed_notification_throws
           (sample_evt (VNum 1234)) (sample_jqXhr success_response)
           (VObj [("url", VNum 42)]) empty_queue).
  right; right; right; right. exists (VNum 42).
  split; [reflexivity|]. split; discriminate.
Defined.

(** X4: on a matching success the [time] attribute of the queued event is the
    time stamp itself unless that is one of the falsy values ([undefined],
    [null], [false], 0, [NaN], the empty string), and the empty string for
    each of those. *)
Theorem time_is_timestamp_or_empty
  (evt jqXhr opts : JsVal) (s : string) (r ts : JsVal)
  (q : list JsVal) (out : list string) :
  prop_of opts "url" = inr (VStr s) ->
  contains signup_resource s ->
  prop_of jqXhr "responseJSON" = inr r ->
  success_true r ->
  prop_of evt "timeStamp" = inr ts ->
  exists e,
    handler evt jqXhr opts (mkWorld (Some (VArr q)) out) =
    (inr tt, mkWorld (Some (VArr (q ++ [e]))) (out ++ ["lead_form_completed"]))
    /\ (((ts = VUndefined \/ ts = VNull \/ ts = VBool false \/
          ts = VNum 0 \/ ts = VNaN \/ ts = VStr "")
         /\ event_time e = Some (VStr ""))
        \/
        (ts <> VUndefined /\ ts <> VNull /\ ts <> VBool false /\
         ts <> VNum 0 /\ ts <> VNaN /\ ts <> VStr ""
         /\ event_time e = Some ts)).
Proof.
  intros U C R S T. exists (lead_event (js_or ts (VStr ""))).
  split; [exact (handler_positive evt jqXhr opts s r U R ts q out C S T)|].
  unfold js_or.
  destruct ts as [| |[|]|n| |t| |]; simpl;
    try (left; split; [tauto | reflexivity]);
    try (right; repeat split; discriminate).
  - destruct (Z.eqb_spec n 0) as [->|N]; simpl.
    + left. split; [tauto | reflexivity].
    + right. repeat split; congruence.
  - destruct (String.eqb_spec t "") as [->|N]; simpl.
    + left. split; [tauto | reflexivity].
    + right. repeat split; congruence.
Qed.

Lemma time_is_timestamp_or_empty_witness :
  exists e,
    handler (sample_evt VNaN) (sample_jqXhr success_response)
            (sample_opts sample_url) (mkWorld (Some (VArr [])) []) =
    (inr tt, mkWorld (Some (VArr ([] ++ [e]))) ([] ++ ["lead_form_completed"]))
    /\ (((VNaN = VUndefined \/ VNaN = VNull \/ VNaN = VBool false \/
          VNaN = VNum 0 \/ VNaN = VNaN \/ VNaN = VStr "")
         /\ event_time e = Some (VStr ""))
        \/
        (VNaN <> VUndefined /\ VNaN <> VNull /\ VNaN <> VBool false /\
         VNaN <> VNum 0 /\ VNaN <> VNaN /\ VNaN <> VStr ""
         /\ event_time e = Some VNaN)).
Proof.
  apply (time_is_timestamp_or_empty
           (sample_evt VNaN) (sample_jqXhr success_response)
           (sample_opts sample_url) sample_url success_response VNaN).
  - reflexivity.
  - exact sample_url_contains.
  - reflexivity.
  - exact success_response_true.
  - reflexivity.
Defined.

(** X5: whatever the arguments and the store, a run that completes has
    written exactly one trace line, and the line tells what happened to the
    queue: after [lead_form_completed] the [dataLayer] array holds its former
    elements followed by one [lead_form_completed] event whose [time] is
    truthy or the empty string; after [lead_form_not_completed] the
    [dataLayer] binding is as it was. *)
Theorem trace_tells_queue_effect
  (evt jqXhr opts : JsVal) (w w' : World) :
  handler evt jqXhr opts w = (inr tt, w') ->
  (console w' = (console w ++ ["lead_form_completed"])%list
   /\ exists q t,
        dataLayer w = Some (VArr q)
        /\ dataLayer w' = Some (VArr (q ++ [lead_event t]))
        /\ (t = VStr "" \/ to_boolean t = true))
  \/
  (console w' = (console w ++ ["lead_form_not_completed"])%list
   /\ dataLayer w' = dataLayer w).
Proof.
  intros F.
  destruct (handler_outcomes evt jqXhr opts w)
    as [[e' H] | [H | (q & ts & D & _ & H)]]; rewrite H in F.
  - discriminate F.
  - injection F as <-. right. now split.
  - injection F as <-. left. split; [reflexivity|].
    exists q, (js_or ts (VStr "")). repeat split; [assumption|].
    apply js_or_empty.
Qed.

Lemma trace_tells_queue_effect_witness :
  (console (mkWorld (Some (VArr [lead_event (VNum 1234)]))
                    ["lead_form_completed"])
   = (console empty_queue ++ ["lead_form_completed"])%list
   /\ exists q t,
        dataLayer empty_queue = Some (VArr q)
        /\ dataLayer (mkWorld (Some (VArr [lead_event (VNum 1234)]))
                              ["lead_form_completed"])
           = Some (VArr (q ++ [lead_event t]))
        /\ (t = VStr "" \/ to_boolean t = true))
  \/
  (console (mkWorld (Some (VArr [lead_event (VNum 1234)]))
                    ["lead_form_completed"])
   = (console empty_queue ++ ["lead_form_not_completed"])%list
   /\ dataLayer (mkWorld (Some (VArr [lead_event (VNum 1234)]))
                         ["lead_form_completed"])
      = dataLayer empty_queue).
Proof.
  apply (trace_tells_queue_effect
           (sample_evt (VNum 1234)) (sample_jqXhr success_response)
           (sample_opts sample_url) empty_queue).
  reflexivity.
Defined.

(** ** Successive notifications *)

(** X6: over any sequence of notifications, well-formed or not, and from any
    store, the console only grows, by at most one trace line per
    notification; the [dataLayer] binding is never created or replaced; an
    array bound to it keeps its elements, in order, and gains exactly one
    [lead_form_completed] event per [lead_form_completed] line traced. *)
Theorem deliver_append_only (ns : list Notification) (w : World) :
  exists (added : list JsVal) (lines : list string),
    console (deliver ns w) = (console w ++ lines)%list
    /\ (List.length lines <= List.length ns)%nat
    /\ Forall is_trace_line lines
    /\ List.length added = count_occ string_dec lines "lead_form_completed"
    /\ Forall (fun e => event_name e = Some (VStr "lead_form_completed")) added
    /\ match dataLayer w with
       | Some (VArr q) => dataLayer (deliver ns w) = Some (VArr (q ++ added))
       | _ => dataLayer (deliver ns w) = dataLayer w /\ added = []
       end.
Proof.
  revert w. induction ns as [|[[evt jqXhr] opts] ns IH]; intros w.
  - exists [], []. simpl. rewrite app_nil_r.
    repeat split; try constructor.
    destruct (dataLayer w) as [[]|]; try (now split).
    now rewrite app_nil_r.
  - cbn [deliver].
    destruct (handler_outcomes evt jqXhr opts w)
      as [[e H] | [H | (q & ts & D & _ & H)]]; rewrite H; cbn [snd].
    + destruct (IH w) as (added & lines & Hc & Hl & Ht & Hn & He & Hd).
      exists added, lines. repeat split; try assumption. simpl. lia.
    + destruct (IH (mkWorld (dataLayer w)
                            (console w ++ ["lead_form_not_completed"])))
        as (added & lines & Hc & Hl & Ht & Hn & He & Hd).
      cbn [console dataLayer] in Hc, Hd.
      exists added, ("lead_form_not_completed" :: lines).
      repeat split; try assumption.
      * now rewrite Hc, <- app_assoc.
      * simpl. lia.
      * constructor; [now right | assumption].
    + destruct (IH (mkWorld (Some (VArr (q ++ [lead_event (js_or ts (VStr ""))])))
                            (console w ++ ["lead_form_completed"])))
        as (added & lines & Hc & Hl & Ht & Hn & He & Hd).
      cbn [console dataLayer] in Hc, Hd.
      exists (lead_event (js_or ts (VStr "")) :: added),
             ("lead_form_completed" :: lines).
      repeat split.
      * now rewrite Hc, <- app_assoc.
      * simpl. lia.
      * constructor; [now left | assumption].
      * simpl. rewrite Hn.
        now destruct (string_dec "lead_form_completed" "lead_form_completed").
      * constructor; [reflexivity | assumption].
      * rewrite D, Hd, <- app_assoc. reflexivity.
Qed.

(** X7: on a page whose [dataLayer] is an array, a sequence of well-formed
    notifications leaves the queue it found followed by one event per matching
    success, in arrival order, and one trace line per notification, in
    arrival order; earlier notifications do not change how later ones are
    classified. *)
Theorem deliver_queues_in_order
  (ns : list Notification) (es : list JsVal) (ls : list string)
  (q : list JsVal) (out : list string) :
  queued ns es ls ->
  deliver ns (mkWorld (Some (VArr q)) out)
  = mkWorld (Some (VArr (q ++ es))) (out ++ ls).
Proof.
  intros Q. revert q out.
  induction Q as [| evt jqXhr opts s r ts t ns es ls U R T C S Ht _ IH
                  | evt jqXhr opts s r ns es ls U R N _ IH]; intros q out.
  - simpl. now rewrite !app_nil_r.
  - cbn [deliver].
    rewrite (handler_positive evt jqXhr opts s r U R ts q out C S T).
    cbn [snd]. rewrite IH, <- !app_assoc.
    assert (E : js_or ts (VStr "") = t).
    { unfold js_or. destruct Ht as [[-> ->] | [-> ->]]; reflexivity. }
    now rewrite E.
  - cbn [deliver].
    rewrite (handler_negative evt jqXhr opts s r U R _ N).
    cbn [snd dataLayer console]. now rewrite IH, <- app_assoc.
Qed.

Lemma deliver_queues_in_order_witness :
  deliver [(sample_evt (VNum 10), sample_jqXhr success_response,
            sample_opts sample_url);
           (sample_evt (VNum 20), sample_jqXhr failure_response,
            sample_opts sample_url);
           (sample_evt (VNum 0), sample_jqXhr success_response,
            sample_opts sample_url)]
          (mkWorld (Some (VArr [VObj [("event", VStr "gtm.js")]])) [])
  = mkWorld
      (Some (VArr ([VObj [("event", VStr "gtm.js")]] ++
                   [VObj [("event", VStr "lead_form_completed");
                          ("attributes", VObj [("time", VNum 10)])];
                    VObj [("event", VStr "lead_form_completed");
                          ("attributes", VObj [("time", VStr "")])]])))
      ([] ++ ["lead_form_completed"; "lead_form_not_completed";
              "lead_form_completed"]).
Proof.
  apply (deliver_queues_in_order
           [(sample_evt (VNum 10), sample_jqXhr success_response,
             sample_opts sample_url);
            (sample_evt (VNum 20), sample_jqXhr failure_response,
             sample_opts sample_url);
            (sample_evt (VNum 0), sample_jqXhr success_response,
             sample_opts sample_url)]).
  apply (queued_lead _ _ _ sample_url success_response (VNum 10));
    try reflexivity;
    [exact sample_url_contains | exact success_response_true
     | left; split; reflexivity |].
  apply (queued_other _ _ _ sample_url failure_response);
    try reflexivity;
    [intros [_ S]; exact (failure_response_not_true S) |].
  apply (queued_lead _ _ _ sample_url success_response (VNum 0));
    try reflexivity;
    [exact sample_url_contains | exact success_response_true
     | right; split; reflexivity |].
  exact queued_nil.
Defined.

(** ** More on the start-up *)

Lemma fire_waiting (jq : bool) (k : nat) :
  fire jq (waiting_page k)
  = if jq then attached_page (S k) else waiting_page (S k).
Proof.
  unfold fire, waitForjQuery, bindToAjax, waiting_page, attached_page.
  cbn [timers dollar handlers checks].
  destruct jq; [reflexivity|].
  now rewrite <- (repeat_cons (S k) false).
Qed.

(** X8: there is no retry limit.  While [jQuery] stays undefined every
    polling interval runs one more failed check and leaves exactly one poll
    pending; nothing is ever bound and [$] is never assigned. *)
Theorem polls_forever (avail : nat -> bool) (n : nat) :
  (forall i, avail i = false) ->
  run avail n = waiting_page n
  /\ phase (run avail n) = WAITING
  /\ timers (run avail n) = 1%nat
  /\ List.length (checks (run avail n)) = S n.
Proof.
  intros F.
  assert (E : run avail n = waiting_page n).
  { apply run_waiting. intros i _. apply F. }
  rewrite E. repeat split. simpl. now rewrite repeat_length.
Qed.

Lemma polls_forever_witness :
  run (fun _ => false) 7 = waiting_page 7
  /\ phase (run (fun _ => false) 7) = WAITING
  /\ timers (run (fun _ => false) 7) = 1%nat
  /\ List.length (checks (run (fun _ => false) 7)) = 8%nat.
Proof.
  apply (polls_forever (fun _ => false) 7).
  intros i. reflexivity.
Defined.

Lemma waiting_reachable (k : nat) : reachable (waiting_page k).
Proof.
  induction k as [|k IH].
  - exact (reach_start false).
  - apply (reach_step (waiting_page k)); [exact IH|].
    rewrite <- (fire_waiting false k : _ = waiting_page (S k)).
    apply step_timer. simpl. lia.
Qed.

(** X9: the reachable pages are exactly the waiting pages (some failed
    checks, one poll pending, nothing bound, [$] unassigned) and the attached
    pages (failed checks then one success, no poll pending, the one handler
    bound, [$] assigned).  So there is never more than one poll pending, and
    the handler is bound exactly when the last check succeeded. *)
Theorem reachable_pages (p : Page) :
  reachable p <-> exists k, p = waiting_page k \/ p = attached_page k.
Proof.
  split.
  - induction 1 as [jq | p p' _ IH St].
    + exists O. destruct jq; [now right | now left].
    + destruct St as [jq p L]. destruct IH as [k [-> | ->]].
      * exists (S k). rewrite fire_waiting.
        destruct jq; [now right | now left].
      * simpl in L. lia.
  - intros [k [-> | ->]].
    + apply waiting_reachable.
    + destruct k as [|k].
      * exact (reach_start true).
      * apply (reach_step (waiting_page k)); [apply waiting_reachable|].
        rewrite <- (fire_waiting true k : _ = attached_page (S k)).
        apply step_timer. simpl. lia.
Qed.

Lemma handlers_iter_bindToAjax (n : nat) (p : Page) :
  handlers (Nat.iter n bindToAjax p) = (handlers p ++ repeat handler n)%list.
Proof.
  induction n as [|n IH]; simpl.
  - now rewrite app_nil_r.
  - rewrite IH, <- app_assoc. f_equal. symmetry. apply repeat_cons.
Qed.

Lemma dispatch_repeat_positive
  (evt jqXhr opts : JsVal) (s : string) (r ts : JsVal) (n : nat) :
  prop_of opts "url" = inr (VStr s) ->
  prop_of jqXhr "responseJSON" = inr r ->
  prop_of evt "timeStamp" = inr ts ->
  contains signup_resource s -> success_true r ->
  forall q out,
    dispatch (repeat handler n) evt jqXhr opts (mkWorld (Some (VArr q)) out)
    = (inr tt,
       mkWorld (Some (VArr (q ++ repeat (lead_event (js_or ts (VStr ""))) n)))
               (out ++ repeat "lead_form_completed" n)).
Proof.
  intros U R T C S. induction n as [|n IH]; intros q out.
  - simpl. unfold ret. now rewrite !app_nil_r.
  - cbn [repeat dispatch]. unfold bind.
    rewrite (handler_positive evt jqXhr opts s r U R ts q out C S T).
    rewrite IH, <- !app_assoc. reflexivity.
Qed.

(** X10: [bindToAjax] does not look for an earlier subscription: every call
    binds one more handler.  After [n] calls a single matching success
    queues [n] identical events and traces [n] lines. *)
Theorem every_bind_adds_an_event
  (evt jqXhr opts : JsVal) (s : string) (r ts : JsVal) (n : nat)
  (q : list JsVal) (out : list string) :
  prop_of opts "url" = inr (VStr s) ->
  prop_of jqXhr "responseJSON" = inr r ->
  prop_of evt "timeStamp" = inr ts ->
  contains signup_resource s -> success_true r ->
  List.length (handlers (Nat.iter n bindToAjax page0)) = n
  /\ exists e,
       dispatch (handlers (Nat.iter n bindToAjax page0)) evt jqXhr opts
                (mkWorld (Some (VArr q)) out)
       = (inr tt,
          mkWorld (Some (VArr (q ++ repeat e n)))
                  (out ++ repeat "lead_form_completed" n))
       /\ event_name e = Some (VStr "lead_form_completed").
Proof.
  intros U R T C S. rewrite handlers_iter_bindToAjax. simpl.
  split; [apply repeat_length|].
  exists (lead_event (js_or ts (VStr ""))). split; [|reflexivity].
  now apply (dispatch_repeat_positive evt jqXhr opts s r ts n).
Qed.

Lemma every_bind_adds_an_event_witness :
  List.length (handlers (Nat.iter 2 bindToAjax page0)) = 2%nat
  /\ exists e,
       dispatch (handlers (Nat.iter 2 bindToAjax page0))
                (sample_evt (VNum 1234)) (sample_jqXhr success_response)
                (sample_opts sample_url) (mkWorld (Some (VArr [])) [])
       = (inr tt,
          mkWorld (Some (VArr ([] ++ repeat e 2)))
                  ([] ++ repeat "lead_form_completed" 2))
       /\ event_name e = Some (VStr "lead_form_completed").
Proof.
  apply (every_bind_adds_an_event
           (sample_evt (VNum 1234)) (sample_jqXhr success_response)
           (sample_opts sample_url) sample_url success_response (VNum 1234) 2).
  - reflexivity.
  - reflexivity.
  - reflexivity.
  - exact sample_url_contains.
  - exact success_response_true.
Defined.
